(** * Tenant lifecycle control plane of hrms-saas

    Shallow embedding of
    - [backend/app/models/tenant.py] (Tenant, TenantSubscriptionHistory,
      TenantUsageLog, the TenantStatus / TenantPlan enums),
    - [backend/app/models/subscription.py] (SubscriptionPlan, the catalog row),
    - [backend/app/services/tenant_service.py] (TenantService),
    - [backend/app/core/database.py] (TenantDatabaseManager).

    Database sessions are modelled as an explicit state: the committed
    tables, the session's working copy of them (written by [session.add]
    and [flush], published by [commit], discarded by [rollback] or by
    closing the session) and the set of schemas (DDL issued through a
    separate session that commits on its own).

    Every session of [TenantService] and of the schema operations of
    [TenantDatabaseManager] is opened with [async with get_session() as
    session].  [get_session] (core/database.py, lines 76-86) is an async
    generator function with no [@asynccontextmanager] decorator, so
    [get_session()] returns an async generator object, whose type has no
    [__aenter__]: the [async with] statement raises [TypeError] before its
    body, or the generator's own body, runs.  [with_session] models exactly
    that; the session bodies are still translated, as the code the
    operations would run inside a working session. *)

From Stdlib Require Import String List Bool ZArith QArith Lia.
Import ListNotations.
Open Scope nat_scope.
Open Scope string_scope.

(** ** Enumerations (models/tenant.py) *)

Inductive TenantStatus :=
| ACTIVE | PENDING | INACTIVE | SUSPENDED | TRIAL | EXPIRED | CANCELLED.

Definition TenantStatus_eqb (a b : TenantStatus) : bool :=
  match a, b with
  | ACTIVE, ACTIVE | PENDING, PENDING | INACTIVE, INACTIVE
  | SUSPENDED, SUSPENDED | TRIAL, TRIAL | EXPIRED, EXPIRED
  | CANCELLED, CANCELLED => true
  | _, _ => false
  end.

Inductive TenantPlan := FREE | BASIC | PROFESSIONAL | ENTERPRISE | CUSTOM.

(** [TenantPlan.value] *)
Definition TenantPlan_value (p : TenantPlan) : string :=
  match p with
  | FREE => "free" | BASIC => "basic" | PROFESSIONAL => "professional"
  | ENTERPRISE => "enterprise" | CUSTOM => "custom"
  end.

(** Python exceptions raised along the modelled paths. *)
Inductive Exc :=
| ValueError (msg : string)
| IntegrityError (msg : string)
| MultipleResultsFound
| DBError (msg : string)
| TypeError (msg : string).

(** [TenantPlan(s)]: lookup by value, [ValueError] otherwise. *)
Definition TenantPlan_of (s : string) : option TenantPlan :=
  if String.eqb s "free" then Some FREE
  else if String.eqb s "basic" then Some BASIC
  else if String.eqb s "professional" then Some PROFESSIONAL
  else if String.eqb s "enterprise" then Some ENTERPRISE
  else if String.eqb s "custom" then Some CUSTOM
  else None.

Inductive BillingCycle := MONTHLY | QUARTERLY | YEARLY | CUSTOM_CYCLE.

(** ** Rows *)

(** [SubscriptionPlan] (models/subscription.py), the columns the service reads. *)
Record SubscriptionPlan := mkPlan {
  sp_plan_type : string;
  sp_is_active : bool;
  sp_max_users : Z;
  sp_max_employees : Z;
  sp_max_storage_gb : Z;
  sp_enabled_modules : list string;
  sp_feature_flags : list (string * bool);
  sp_monthly_price : Q;
  sp_trial_days : Z;
  sp_support_tier : string
}.

(** [Tenant] (models/tenant.py).  [trial_end_date] is not a column of the
    table: it is the plain instance attribute the service assigns
    ([tenant.trial_end_date = ...]); the mapped column is [trial_ends_at]. *)
Record Tenant := mkTenant {
  id : nat;
  name : string;
  slug : string;
  contact_email : string;
  plan : TenantPlan;
  status : TenantStatus;
  billing_cycle : BillingCycle;
  trial_ends_at : option Z;
  trial_end_date : option Z;
  max_users : Z;
  max_employees : Z;
  max_storage_gb : Z;
  current_storage_gb : Q;
  enabled_modules : list string;
  feature_flags : list (string * bool);
  monthly_rate : option Q;
  support_tier : string;
  timezone : string;
  locale : string;
  currency : string;
  notes : option string;
  updated_at : Z
}.

(** [TenantSubscriptionHistory] *)
Record SubscriptionHistory := mkHistory {
  h_tenant_id : nat;
  old_plan : option string;
  new_plan : string;
  change_reason : option string;
  initiated_by : option string
}.

(** [TenantUsageLog] *)
Record TenantUsageLog := mkUsageLog {
  u_tenant_id : nat;
  log_date : Z;
  resource_type : string;
  resource_id : option string;
  action : string;
  quantity : Q
}.

(** [User] and [Role] rows written by tenant creation. *)
Record User := mkUser {
  user_id : nat;
  username : string;
  email : string;
  user_is_active : bool;
  user_tenant_id : nat
}.

Record Role := mkRole {
  role_id : nat;
  role_name : string;
  role_tenant_id : nat
}.

(** [Employee] rows as [_get_employee_count] reads them. *)
Record Employee := mkEmployee {
  emp_tenant_id : nat;
  employment_status : string
}.

(** The tables of the shared [public] schema. *)
Record Db := mkDb {
  tenants : list Tenant;
  plans : list SubscriptionPlan;
  history : list SubscriptionHistory;
  usage_logs : list TenantUsageLog;
  users : list User;
  roles : list Role;
  user_roles : list (nat * nat * nat);
  employees : list Employee
}.

(** Committed tables, schemas, and the id sequence (sequences are not
    transactional: a rolled back insert still consumes its id). *)
Record World := mkWorld {
  db : Db;
  schemas : list string;
  seq : nat
}.

(** ** Sessions: a state and error monad *)

Inductive result (A : Type) :=
| Ok (a : A)
| Raise (e : Exc).
Arguments Ok {A} a.
Arguments Raise {A} e.

(** The state a session body runs on: the world and the session's
    uncommitted working copy of the tables. *)
Record St := mkSt {
  world : World;
  work : Db
}.

Definition Tx (A : Type) := St -> result A * St.

Definition ret {A} (a : A) : Tx A := fun s => (Ok a, s).
Definition raise {A} (e : Exc) : Tx A := fun s => (Raise e, s).
Definition bind {A B} (m : Tx A) (k : A -> Tx B) : Tx B :=
  fun s => match m s with
           | (Ok a, s') => k a s'
           | (Raise e, s') => (Raise e, s')
           end.

Notation "x <- m ;; k" := (bind m (fun x => k))
  (at level 61, m at next level, right associativity).
Notation "m ;;; k" := (bind m (fun _ => k))
  (at level 61, right associativity).

Definition get_work : Tx Db := fun s => (Ok (work s), s).
Definition put_work (d : Db) : Tx unit :=
  fun s => (Ok tt, mkSt (world s) d).

(** [await session.commit()]: the working copy becomes the committed state. *)
Definition commit : Tx unit :=
  fun s => let w := world s in
           (Ok tt, mkSt (mkWorld (work s) (schemas w) (seq w)) (work s)).

(** [await session.rollback()]: the working copy is dropped. *)
Definition rollback_st (s : St) : St := mkSt (world s) (db (world s)).
Definition rollback : Tx unit := fun s => (Ok tt, rollback_st s).

(** A fresh primary key from the sequence. *)
Definition next_id : Tx nat :=
  fun s => let w := world s in
           (Ok (seq w), mkSt (mkWorld (db w) (schemas w) (S (seq w))) (work s)).

(** [try: body except Exception: await session.rollback(); raise] *)
Definition try_rollback {A} (body : Tx A) : Tx A :=
  fun s => match body s with
           | (Raise e, s') => (Raise e, rollback_st s')
           | r => r
           end.

(** The exception [async with] raises on an object whose type lacks
    [__aenter__] (CPython 3.11 and later). *)
Definition session_protocol_error : Exc :=
  TypeError "'async_generator' object does not support the asynchronous context manager protocol".

(** [async with get_session() as session: body].  Calling [get_session]
    only builds the generator object (nothing of [get_session]'s body runs,
    so no engine, factory or connection is touched); looking up
    [__aenter__] on it then raises [TypeError].  [body] never runs and the
    world is left as it was. *)
Definition with_session {A} (body : Tx A) (w : World) : result A * World :=
  (Raise session_protocol_error, w).

(** [result.scalar_one_or_none()] *)
Definition scalar_one_or_none {A} (rows : list A) : Tx (option A) :=
  match rows with
  | [] => ret None
  | [x] => ret (Some x)
  | _ => raise MultipleResultsFound
  end.

(** ** Table updates on the working copy *)

Definition set_tenants (d : Db) (ts : list Tenant) : Db :=
  mkDb ts (plans d) (history d) (usage_logs d) (users d) (roles d) (user_roles d) (employees d).
Definition set_history (d : Db) (hs : list SubscriptionHistory) : Db :=
  mkDb (tenants d) (plans d) hs (usage_logs d) (users d) (roles d) (user_roles d) (employees d).
Definition set_usage_logs (d : Db) (ls : list TenantUsageLog) : Db :=
  mkDb (tenants d) (plans d) (history d) ls (users d) (roles d) (user_roles d) (employees d).
Definition set_users (d : Db) (us : list User) : Db :=
  mkDb (tenants d) (plans d) (history d) (usage_logs d) us (roles d) (user_roles d) (employees d).
Definition set_roles (d : Db) (rs : list Role) : Db :=
  mkDb (tenants d) (plans d) (history d) (usage_logs d) (users d) rs (user_roles d) (employees d).
Definition set_user_roles (d : Db) (urs : list (nat * nat * nat)) : Db :=
  mkDb (tenants d) (plans d) (history d) (usage_logs d) (users d) (roles d) urs (employees d).

(** Writing back an attribute change of the identity-mapped tenant. *)
Definition replace_tenant (t : Tenant) (ts : list Tenant) : list Tenant :=
  map (fun u => if Nat.eqb (id u) (id t) then t else u) ts.

Definition save_tenant (t : Tenant) : Tx unit :=
  d <- get_work ;; put_work (set_tenants d (replace_tenant t (tenants d))).

(** Attribute assignments on a loaded tenant. *)
Definition set_status (st : TenantStatus) (t : Tenant) : Tenant :=
  mkTenant (id t) (name t) (slug t) (contact_email t) (plan t) st
    (billing_cycle t) (trial_ends_at t) (trial_end_date t) (max_users t)
    (max_employees t) (max_storage_gb t) (current_storage_gb t)
    (enabled_modules t) (feature_flags t) (monthly_rate t) (support_tier t)
    (timezone t) (locale t) (currency t) (notes t) (updated_at t).

Definition set_notes (n : option string) (t : Tenant) : Tenant :=
  mkTenant (id t) (name t) (slug t) (contact_email t) (plan t) (status t)
    (billing_cycle t) (trial_ends_at t) (trial_end_date t) (max_users t)
    (max_employees t) (max_storage_gb t) (current_storage_gb t)
    (enabled_modules t) (feature_flags t) (monthly_rate t) (support_tier t)
    (timezone t) (locale t) (currency t) n (updated_at t).

(** [tenant.trial_end_date = ...]: the instance attribute, not the column. *)
Definition set_trial_end_date (d : option Z) (t : Tenant) : Tenant :=
  mkTenant (id t) (name t) (slug t) (contact_email t) (plan t) (status t)
    (billing_cycle t) (trial_ends_at t) d (max_users t)
    (max_employees t) (max_storage_gb t) (current_storage_gb t)
    (enabled_modules t) (feature_flags t) (monthly_rate t) (support_tier t)
    (timezone t) (locale t) (currency t) (notes t) (updated_at t).

Definition set_id (i : nat) (t : Tenant) : Tenant :=
  mkTenant i (name t) (slug t) (contact_email t) (plan t) (status t)
    (billing_cycle t) (trial_ends_at t) (trial_end_date t) (max_users t)
    (max_employees t) (max_storage_gb t) (current_storage_gb t)
    (enabled_modules t) (feature_flags t) (monthly_rate t) (support_tier t)
    (timezone t) (locale t) (currency t) (notes t) (updated_at t).

(** [updated_at] has [onupdate=func.now()]: the UPDATE the commit emits
    stamps it. *)
Definition touch (now : Z) (t : Tenant) : Tenant :=
  mkTenant (id t) (name t) (slug t) (contact_email t) (plan t) (status t)
    (billing_cycle t) (trial_ends_at t) (trial_end_date t) (max_users t)
    (max_employees t) (max_storage_gb t) (current_storage_gb t)
    (enabled_modules t) (feature_flags t) (monthly_rate t) (support_tier t)
    (timezone t) (locale t) (currency t) (notes t) now.

(** The block of assignments of [update_tenant_subscription]
    (tenant_service.py, lines 141-148). *)
Definition apply_plan (tp : TenantPlan) (p : SubscriptionPlan) (t : Tenant) : Tenant :=
  mkTenant (id t) (name t) (slug t) (contact_email t) tp (status t)
    (billing_cycle t) (trial_ends_at t) (trial_end_date t) (sp_max_users p)
    (sp_max_employees p) (sp_max_storage_gb p) (current_storage_gb t)
    (sp_enabled_modules p) (sp_feature_flags p) (Some (sp_monthly_price p))
    (sp_support_tier p) (timezone t) (locale t) (currency t) (notes t)
    (updated_at t).

(** [Tenant.has_module_access]: [module in self.enabled_modules]. *)
Definition has_module_access (t : Tenant) (module : string) : bool :=
  existsb (String.eqb module) (enabled_modules t).

(** [Tenant.is_active] *)
Definition is_active (t : Tenant) : bool :=
  TenantStatus_eqb (status t) ACTIVE || TenantStatus_eqb (status t) TRIAL.

(** ** Partition router (core/database.py) *)

(** PostgreSQL keeps the first 63 bytes of an identifier written in a
    statement ([NAMEDATALEN - 1]); slugs are ASCII, one byte a character. *)
Definition pg_ident (x : string) : string := String.substring 0 63 x.

(** A DDL statement executed and then committed by [session.commit()]:
    the schema catalog changes, the tables do not.  [fault] is the outcome
    the database reports for the statement: [Some msg] when it fails
    (connection loss, permissions, ...). *)
Definition exec_ddl_commit (fault : option string) (f : list string -> list string) : Tx unit :=
  match fault with
  | Some msg => raise (DBError msg)
  | None =>
      fun s => let w := world s in
               (Ok tt, mkSt (mkWorld (db w) (f (schemas w)) (seq w)) (work s))
  end.

(** [TenantDatabaseManager.create_tenant_schema]: inside
    [async with get_session() as session], one
    [CREATE SCHEMA IF NOT EXISTS "<tenant_id>"] statement and a commit. *)
Definition create_tenant_schema_body (fault : option string) (tenant_id : string) : Tx unit :=
  exec_ddl_commit fault
    (fun sch => if existsb (String.eqb (pg_ident tenant_id)) sch
                then sch else (sch ++ [pg_ident tenant_id])%list).

Definition create_tenant_schema (fault : option string) (tenant_id : string)
    (w : World) : result unit * World :=
  with_session (create_tenant_schema_body fault tenant_id) w.

(** Calling a coroutine that opens its own session from inside a session
    body: it acts on the world, the caller's working copy is untouched. *)
Definition call_world {A} (f : World -> result A * World) : Tx A :=
  fun s => let '(r, w') := f (world s) in (r, mkSt w' (work s)).

(** [TenantDatabaseManager.drop_tenant_schema]: inside
    [async with get_session() as session], one
    [DROP SCHEMA IF EXISTS "<tenant_id>" CASCADE] statement and a commit. *)
Definition drop_tenant_schema_body (fault : option string) (tenant_id : string) : Tx unit :=
  exec_ddl_commit fault
    (filter (fun x => negb (String.eqb x (pg_ident tenant_id)))).

Definition drop_tenant_schema (fault : option string) (tenant_id : string)
    (w : World) : result unit * World :=
  with_session (drop_tenant_schema_body fault tenant_id) w.

(** [TenantDatabaseManager.tenant_exists]: inside
    [async with get_session() as session], [result.scalar() is not None]
    on the rows of [information_schema.schemata] named [tenant_id]. *)
Definition tenant_exists_body (tenant_id : string) : Tx bool :=
  fun s => (Ok (existsb (String.eqb tenant_id) (schemas (world s))), s).

Definition tenant_exists (tenant_id : string) (w : World) : result bool * World :=
  with_session (tenant_exists_body tenant_id) w.

(** [schema_name LIKE 'pg_%']: [_] stands for exactly one character and
    [%] for any sequence, so the pattern matches the names of at least
    three characters that start with "pg". *)
Definition like_pg_pct (x : string) : bool :=
  String.prefix "pg" x && Nat.leb 3 (String.length x).

(** [TenantDatabaseManager.list_tenants]: inside
    [async with get_session() as session], the schema names other than
    the system ones. *)
Definition list_tenants_body : Tx (list string) :=
  fun s => (Ok (filter (fun x => negb (existsb (String.eqb x)
                                         ["information_schema"; "pg_catalog"; "public"])
                                 && negb (like_pg_pct x))
                       (schemas (world s))), s).

Definition list_tenants (w : World) : result (list string) * World :=
  with_session list_tenants_body w.

(** ** Inputs of the service *)

Record TenantData := mkTenantData {
  td_name : string;
  td_slug : string;
  td_contact_email : string;
  td_timezone : option string;
  td_locale : option string;
  td_currency : option string
}.

Record AdminData := mkAdminData {
  ad_username : string;
  ad_email : string
}.

(** [date.today()] and the database's [now()]. *)
Record Clock := mkClock {
  today : Z;
  now : Z
}.

(** The dict [get_tenant_usage] returns. *)
Record Usage := mkUsage {
  current_users_u : nat;
  current_employees_u : nat;
  current_storage_gb_u : Q;
  max_users_u : Z;
  max_employees_u : Z;
  max_storage_gb_u : Z;
  pct_users : Q;
  pct_employees : Q;
  pct_storage : Q
}.

(** [(count / limit) * 100 if limit > 0 else 0] *)
Definition percentage (count : Q) (limit : Z) : Q :=
  if (0 <? limit)%Z then (count / inject_Z limit * 100)%Q else 0%Q.

(** The message of SQLAlchemy's default declarative constructor for a
    keyword that is no attribute of the class. *)
Definition trial_days_error : Exc :=
  TypeError "'trial_days' is an invalid keyword argument for Tenant".

(** ** TenantService (services/tenant_service.py) *)

Module TenantService.

(** [_get_subscription_plan]: the active plan of that type.  The column is
    an [Enum(PlanType)] whose values are those of [TenantPlan]; a string
    that is no value of the enum reaches PostgreSQL, which rejects it as
    input of the enum type with an error, not with an empty result. *)
Definition _get_subscription_plan (plan_type : string) : Tx (option SubscriptionPlan) :=
  match TenantPlan_of plan_type with
  | None => raise (DBError ("invalid input value for enum plantype: " ++ plan_type))
  | Some _ =>
      d <- get_work ;;
      scalar_one_or_none
        (filter (fun p => String.eqb (sp_plan_type p) plan_type && sp_is_active p) (plans d))
  end.

(** [_get_tenant_by_id] *)
Definition _get_tenant_by_id (tenant_id : nat) : Tx (option Tenant) :=
  d <- get_work ;;
  scalar_one_or_none (filter (fun t => Nat.eqb (id t) tenant_id) (tenants d)).

(** [session.add(tenant); await session.flush()]: the row gets its id and
    enters the working copy; the unique index on [slug] is checked. *)
Definition add_flush_tenant (t : Tenant) : Tx Tenant :=
  i <- next_id ;;
  d <- get_work ;;
  let t' := set_id i t in
  if existsb (fun u => String.eqb (slug u) (slug t')) (tenants d)
  then raise (IntegrityError "tenants.slug")
  else (put_work (set_tenants d (app (tenants d) [t'])) ;;; ret t').

(** [session.add(user); await session.flush()]: unique username and email. *)
Definition add_flush_user (u : User) : Tx unit :=
  d <- get_work ;;
  if existsb (fun v => String.eqb (username v) (username u)
                       || String.eqb (email v) (email u)) (users d)
  then raise (IntegrityError "users")
  else put_work (set_users d (app (users d) [u])).

Definition add_role (r : Role) : Tx unit :=
  d <- get_work ;; put_work (set_roles d (app (roles d) [r])).

(** [_create_admin_user]: the user, the "Admin" role and the link. *)
Definition _create_admin_user (t : Tenant) (admin_data : AdminData) : Tx User :=
  uid <- next_id ;;
  let u := mkUser uid (ad_username admin_data) (ad_email admin_data) true (id t) in
  add_flush_user u ;;;
  rid <- next_id ;;
  add_role (mkRole rid "Admin" (id t)) ;;;
  d <- get_work ;;
  put_work (set_user_roles d (app (user_roles d) [(uid, rid, id t)])) ;;;
  ret u.

Fixpoint add_roles (names : list string) (t : Tenant) : Tx unit :=
  match names with
  | [] => ret tt
  | n :: rest => rid <- next_id ;; add_role (mkRole rid n (id t)) ;;; add_roles rest t
  end.

(** [_create_default_roles] *)
Definition _create_default_roles (t : Tenant) : Tx unit :=
  add_roles ["Manager"; "Employee"; "HR Staff"] t.

(** [Tenant(...)] (lines 52-77).  Its keyword arguments are evaluated
    first ([TenantPlan(plan_type)] among them, done by the caller); the
    declarative constructor then sets them one by one and meets
    [trial_days=plan.trial_days] (line 72), which names no attribute of
    [Tenant] or its bases: it raises [TypeError] and no row is built. *)
Definition new_tenant (clk : Clock) (tenant_data : TenantData) (tp : TenantPlan)
    (p : SubscriptionPlan) : Tx Tenant :=
  raise trial_days_error.

(** [create_tenant] inside its session.  [fault] is what the database
    answers to the schema DDL. *)
Definition create_tenant_body (clk : Clock) (fault : option string)
    (tenant_data : TenantData) (admin_user_data : AdminData)
    (plan_type : string) : Tx (Tenant * User) :=
  try_rollback (
    po <- _get_subscription_plan plan_type ;;
    match po with
    | None => raise (ValueError ("Invalid plan type: " ++ plan_type))
    | Some p =>
        match TenantPlan_of plan_type with
        | None => raise (ValueError plan_type)
        | Some tp =>
            t0 <- new_tenant clk tenant_data tp p ;;
            let t1 := if (0 <? sp_trial_days p)%Z
                      then set_status TRIAL
                             (set_trial_end_date (Some (today clk + sp_trial_days p)%Z) t0)
                      else t0 in
            t <- add_flush_tenant t1 ;;
            call_world (create_tenant_schema fault (slug t)) ;;;
            admin_user <- _create_admin_user t admin_user_data ;;
            _create_default_roles t ;;;
            commit ;;;
            ret (t, admin_user)
        end
    end).

Definition create_tenant (clk : Clock) (fault : option string)
    (tenant_data : TenantData) (admin_user_data : AdminData)
    (plan_type : string) (w : World) : result (Tenant * User) * World :=
  with_session (create_tenant_body clk fault tenant_data admin_user_data plan_type) w.

Definition add_history (h : SubscriptionHistory) : Tx unit :=
  d <- get_work ;; put_work (set_history d (app (history d) [h])).

(** [update_tenant_subscription] inside its session. *)
Definition update_tenant_subscription_body (clk : Clock) (tenant_id : nat)
    (new_plan_type : string) (change_reason initiated_by : option string)
    : Tx Tenant :=
  try_rollback (
    to <- _get_tenant_by_id tenant_id ;;
    match to with
    | None => raise (ValueError "Tenant not found")
    | Some tenant =>
        po <- _get_subscription_plan new_plan_type ;;
        match po with
        | None => raise (ValueError ("Invalid plan type: " ++ new_plan_type))
        | Some new_plan' =>
            let old_plan' := TenantPlan_value (plan tenant) in
            match TenantPlan_of new_plan_type with
            | None => raise (ValueError new_plan_type)
            | Some tp =>
                let t1 := apply_plan tp new_plan' tenant in
                let t2 := if (0 <? sp_trial_days new_plan')%Z
                             && negb (TenantStatus_eqb (status t1) TRIAL)
                          then set_status TRIAL
                                 (set_trial_end_date
                                    (Some (today clk + sp_trial_days new_plan')%Z) t1)
                          else t1 in
                let t3 := touch (now clk) t2 in
                save_tenant t3 ;;;
                add_history (mkHistory tenant_id (Some old_plan') new_plan_type
                                       change_reason initiated_by) ;;;
                commit ;;;
                ret t3
            end
        end
    end).

Definition update_tenant_subscription (clk : Clock) (tenant_id : nat)
    (new_plan_type : string) (change_reason initiated_by : option string)
    (w : World) : result Tenant * World :=
  with_session (update_tenant_subscription_body clk tenant_id new_plan_type
                  change_reason initiated_by) w.

(** [suspend_tenant] *)
Definition suspend_tenant_body (clk : Clock) (tenant_id : nat) (reason : string) : Tx Tenant :=
  to <- _get_tenant_by_id tenant_id ;;
  match to with
  | None => raise (ValueError "Tenant not found")
  | Some tenant =>
      let t := touch (now clk)
                 (set_notes (Some ("Suspended: " ++ reason)) (set_status SUSPENDED tenant)) in
      save_tenant t ;;; commit ;;; ret t
  end.

Definition suspend_tenant (clk : Clock) (tenant_id : nat) (reason : string)
    (w : World) : result Tenant * World :=
  with_session (suspend_tenant_body clk tenant_id reason) w.

(** [activate_tenant] *)
Definition activate_tenant_body (clk : Clock) (tenant_id : nat) : Tx Tenant :=
  to <- _get_tenant_by_id tenant_id ;;
  match to with
  | None => raise (ValueError "Tenant not found")
  | Some tenant =>
      let t := touch (now clk)
                 (set_notes (Some "Account activated") (set_status ACTIVE tenant)) in
      save_tenant t ;;; commit ;;; ret t
  end.

Definition activate_tenant (clk : Clock) (tenant_id : nat) (w : World)
    : result Tenant * World :=
  with_session (activate_tenant_body clk tenant_id) w.

(** [_get_user_count]: active users of the tenant. *)
Definition _get_user_count (tenant_id : nat) : Tx nat :=
  d <- get_work ;;
  ret (length (filter (fun u => Nat.eqb (user_tenant_id u) tenant_id && user_is_active u)
                      (users d))).

(** [_get_employee_count]: employees whose status is "active". *)
Definition _get_employee_count (tenant_id : nat) : Tx nat :=
  d <- get_work ;;
  ret (length (filter (fun e => Nat.eqb (emp_tenant_id e) tenant_id
                                && String.eqb (employment_status e) "active")
                      (employees d))).

(** [get_tenant_usage] *)
Definition get_tenant_usage_body (tenant_id : nat) : Tx Usage :=
  to <- _get_tenant_by_id tenant_id ;;
  match to with
  | None => raise (ValueError "Tenant not found")
  | Some tenant =>
      user_count <- _get_user_count tenant_id ;;
      employee_count <- _get_employee_count tenant_id ;;
      ret (mkUsage user_count employee_count (current_storage_gb tenant)
             (max_users tenant) (max_employees tenant) (max_storage_gb tenant)
             (percentage (inject_Z (Z.of_nat user_count)) (max_users tenant))
             (percentage (inject_Z (Z.of_nat employee_count)) (max_employees tenant))
             (percentage (current_storage_gb tenant) (max_storage_gb tenant)))
  end.

Definition get_tenant_usage (tenant_id : nat) (w : World) : result Usage * World :=
  with_session (get_tenant_usage_body tenant_id) w.

(** [log_usage]: one usage row; the foreign key to [tenants] is checked
    when the commit flushes it. *)
Definition log_usage_body (clk : Clock) (tenant_id : nat) (resource_type action : string)
    (quantity : Q) (resource_id : option string) : Tx unit :=
  d <- get_work ;;
  if existsb (fun t => Nat.eqb (id t) tenant_id) (tenants d)
  then (put_work (set_usage_logs d
                    (app (usage_logs d)
                       [mkUsageLog tenant_id (today clk) resource_type resource_id
                                   action quantity])) ;;;
        commit)
  else raise (IntegrityError "tenant_usage_logs.tenant_id").

Definition log_usage (clk : Clock) (tenant_id : nat) (resource_type action : string)
    (quantity : Q) (resource_id : option string) (w : World) : result unit * World :=
  with_session (log_usage_body clk tenant_id resource_type action quantity resource_id) w.

(** [check_module_access] *)
Definition check_module_access_body (tenant_id : nat) (module : string) : Tx bool :=
  to <- _get_tenant_by_id tenant_id ;;
  match to with
  | None => ret false
  | Some tenant => ret (has_module_access tenant module)
  end.

Definition check_module_access (tenant_id : nat) (module : string) (w : World)
    : result bool * World :=
  with_session (check_module_access_body tenant_id module) w.

(** [get_tenant_by_slug] *)
Definition get_tenant_by_slug (slug_ : string) (w : World) : result (option Tenant) * World :=
  with_session
    (d <- get_work ;;
     scalar_one_or_none (filter (fun t => String.eqb (slug t) slug_) (tenants d))) w.

End TenantService.

(** ** The per-tenant engine cache under the asyncio event loop *)

Module TenantDatabaseManager.

(** The two dicts of the manager, plus the log of [create_async_engine]
    calls (one entry per pool constructed) and a counter naming objects. *)
Record Manager := mkManager {
  tenant_engines : list (string * nat);
  tenant_session_makers : list (string * nat);
  engines_built : list string;
  next_obj : nat
}.

Fixpoint lookup (k : string) (l : list (string * nat)) : option nat :=
  match l with
  | [] => None
  | (k', v) :: r => if String.eqb k k' then Some v else lookup k r
  end.

(** [get_tenant_engine]: its body has no [await], so under the event loop
    the membership test, the construction and the insertion run as one
    step. *)
Definition get_tenant_engine (tenant_id : string) (m : Manager) : nat * Manager :=
  match lookup tenant_id (tenant_engines m) with
  | Some e => (e, m)
  | None =>
      let e := next_obj m in
      (e, mkManager (app (tenant_engines m) [(tenant_id, e)])
                    (tenant_session_makers m)
                    (app (engines_built m) [tenant_id]) (S (next_obj m)))
  end.

(** [get_tenant_session] up to its first suspension point
    ([await session.execute(...)]): awaiting [get_tenant_engine] does not
    yield to the loop because that coroutine never suspends. *)
Definition get_tenant_session_prefix (tenant_id : string) (m : Manager) : nat * Manager :=
  match lookup tenant_id (tenant_session_makers m) with
  | Some f => (f, m)
  | None =>
      let '(_, m1) := get_tenant_engine tenant_id m in
      let f := next_obj m1 in
      (f, mkManager (tenant_engines m1)
                    (app (tenant_session_makers m1) [(tenant_id, f)])
                    (engines_built m1) (S (next_obj m1)))
  end.

(** A pending call and where it stands. *)
Inductive Call := EngineCall | SessionCall.
Inductive Pc := Start | Suspended | Finished.

Record Task := mkTask {
  task_call : Call;
  task_slug : string;
  task_pc : Pc
}.

(** One turn of the event loop for one task: everything up to its next
    suspension point. *)
Definition step_task (m : Manager) (t : Task) : Manager * Task :=
  match task_pc t, task_call t with
  | Start, EngineCall =>
      (snd (get_tenant_engine (task_slug t) m),
       mkTask (task_call t) (task_slug t) Finished)
  | Start, SessionCall =>
      (snd (get_tenant_session_prefix (task_slug t) m),
       mkTask (task_call t) (task_slug t) Suspended)
  | Suspended, _ =>
      (* the session is used and closed; the caches are not touched *)
      (m, mkTask (task_call t) (task_slug t) Finished)
  | Finished, _ => (m, t)
  end.

(** Replace the [i]-th task. *)
Fixpoint update_nth {A} (i : nat) (x : A) (l : list A) : list A :=
  match i, l with
  | _, [] => []
  | O, _ :: r => x :: r
  | S i', y :: r => y :: update_nth i' x r
  end.

(** The loop resumes tasks in the order [sched] names them (an index past
    the end is skipped); every interleaving is such a schedule. *)
Fixpoint run (sched : list nat) (m : Manager) (ts : list Task) : Manager * list Task :=
  match sched with
  | [] => (m, ts)
  | i :: rest =>
      match nth_error ts i with
      | None => run rest m ts
      | Some t => let '(m', t') := step_task m t in run rest m' (update_nth i t' ts)
      end
  end.

(** Number of cache entries for a slug. *)
Definition entries (s : string) (l : list (string * nat)) : nat :=
  length (filter (fun p => String.eqb (fst p) s) l).

Definition pools_built (s : string) (m : Manager) : nat :=
  count_occ string_dec (engines_built m) s.

(** A manager that has never seen [s]. *)
Definition unseen (s : string) (m : Manager) : Prop :=
  entries s (tenant_engines m) = 0 /\ entries s (tenant_session_makers m) = 0
  /\ pools_built s m = 0.

(** The cache invariant for one slug: one pool built per engine entry, at
    most one engine and one session factory, and a factory only next to
    its engine. *)
Definition cache_ok (s : string) (m : Manager) : Prop :=
  pools_built s m = entries s (tenant_engines m)
  /\ entries s (tenant_engines m) <= 1
  /\ entries s (tenant_session_makers m) <= 1
  /\ (entries s (tenant_session_makers m) = 1 -> entries s (tenant_engines m) = 1).

(** Some task on [s] has passed its first step. *)
Definition progressed (s : string) (ts : list Task) : Prop :=
  exists t, In t ts /\ task_slug t = s /\ task_pc t <> Start.

(** [del self.<dict>[tenant_id]] on a dict held as an association list. *)
Definition remove_key (k : string) (l : list (string * nat)) : list (string * nat) :=
  filter (fun p => negb (String.eqb (fst p) k)) l.

(** [close_tenant_connections]: the engine's pool is disposed (its
    connections are closed) and both cache entries are deleted. *)
Definition close_tenant_connections (tenant_id : string) (m : Manager) : Manager :=
  let m1 := match lookup tenant_id (tenant_engines m) with
            | Some _ => mkManager (remove_key tenant_id (tenant_engines m))
                          (tenant_session_makers m) (engines_built m) (next_obj m)
            | None => m
            end in
  match lookup tenant_id (tenant_session_makers m1) with
  | Some _ => mkManager (tenant_engines m1) (remove_key tenant_id (tenant_session_makers m1))
                (engines_built m1) (next_obj m1)
  | None => m1
  end.

End TenantDatabaseManager.

(** The module globals of core/database.py: the shared engine, its
    session factory and [tenant_db_manager]. *)
Record Globals := mkGlobals {
  engine : option nat;
  async_session_maker : option nat;
  tenant_db_manager : TenantDatabaseManager.Manager
}.

(** [close_database_connection] *)
Definition close_database_connection (g : Globals) : Globals :=
  mkGlobals None None (tenant_db_manager g).

(** [for tenant_id in keys: await close_tenant_connections(tenant_id)] *)
Fixpoint close_each (keys : list string) (m : TenantDatabaseManager.Manager)
    : TenantDatabaseManager.Manager :=
  match keys with
  | [] => m
  | k :: rest => close_each rest (TenantDatabaseManager.close_tenant_connections k m)
  end.

(** [close_database]: the keys are copied ([list(...keys())]) before the
    loop. *)
Definition close_database (g : Globals) : Globals :=
  let g1 := close_database_connection g in
  mkGlobals (engine g1) (async_session_maker g1)
    (close_each (map fst (TenantDatabaseManager.tenant_engines (tenant_db_manager g1)))
       (tenant_db_manager g1)).

(** ** Concrete catalog and tenants used by the examples *)

Definition free_plan : SubscriptionPlan :=
  mkPlan "free" true 5 10 1 ["core"; "employees"; "departments"] [] 0%Q 0 "basic".

Definition enterprise_plan : SubscriptionPlan :=
  mkPlan "enterprise" true 1000 5000 100
    ["core"; "employees"; "departments"; "payroll"] [] 199%Q 30 "premium".

Definition catalog_db (ts : list Tenant) : Db := mkDb ts [free_plan; enterprise_plan] [] [] [] [] [] [].

Definition sample_tenant (st : TenantStatus) : Tenant :=
  mkTenant 1 "Acme" "acme" "ops@acme.test" ENTERPRISE st MONTHLY None None
    1000 5000 100 0%Q ["core"; "employees"; "departments"; "payroll"] []
    (Some 199%Q) "premium" "UTC" "en-US" "USD" None 0.

Definition sample_world (st : TenantStatus) : World :=
  mkWorld (catalog_db [sample_tenant st]) ["acme"] 2.

Definition sample_clock : Clock := mkClock 100 1000.

Definition sample_data : TenantData := mkTenantData "Acme" "acme" "ops@acme.test" None None None.
Definition sample_admin : AdminData := mkAdminData "admin" "admin@acme.test".

Definition empty_world : World := mkWorld (catalog_db []) [] 1.

(** The public operations of [TenantService] as one type, to state what
    holds of every call path. *)
Inductive Op :=
| OpCreateTenant (clk : Clock) (fault : option string) (td : TenantData)
    (ad : AdminData) (plan_type : string)
| OpUpdateSubscription (clk : Clock) (tenant_id : nat) (new_plan_type : string)
    (change_reason initiated_by : option string)
| OpSuspend (clk : Clock) (tenant_id : nat) (reason : string)
| OpActivate (clk : Clock) (tenant_id : nat)
| OpGetUsage (tenant_id : nat)
| OpLogUsage (clk : Clock) (tenant_id : nat) (resource_type action : string)
    (quantity : Q) (resource_id : option string)
| OpCheckModuleAccess (tenant_id : nat) (module : string).

Definition run_op (o : Op) (w : World) : World :=
  match o with
  | OpCreateTenant clk fault td ad pt => snd (TenantService.create_tenant clk fault td ad pt w)
  | OpUpdateSubscription clk tid npt r i =>
      snd (TenantService.update_tenant_subscription clk tid npt r i w)
  | OpSuspend clk tid r => snd (TenantService.suspend_tenant clk tid r w)
  | OpActivate clk tid => snd (TenantService.activate_tenant clk tid w)
  | OpGetUsage tid => snd (TenantService.get_tenant_usage tid w)
  | OpLogUsage clk tid rt a q rid => snd (TenantService.log_usage clk tid rt a q rid w)
  | OpCheckModuleAccess tid m => snd (TenantService.check_module_access tid m w)
  end.

(** Any number of calls in sequence, each on the world the previous left. *)
Definition run_ops (ops : list Op) (w : World) : World :=
  fold_left (fun w' o => run_op o w') ops w.

(** The rows of the tenant table with a given id. *)
Definition rows_with_id (tid : nat) (d : Db) : list Tenant :=
  filter (fun t => Nat.eqb (id t) tid) (tenants d).



(** Three requests for the cold tenant "acme" (two sessions, one engine)
    and one for "globex", resumed in an interleaved order. *)
Definition cold_manager : TenantDatabaseManager.Manager :=
  TenantDatabaseManager.mkManager [] [] [] 0.

Definition cold_requests : list TenantDatabaseManager.Task :=
  [TenantDatabaseManager.mkTask TenantDatabaseManager.SessionCall "acme" TenantDatabaseManager.Start;
   TenantDatabaseManager.mkTask TenantDatabaseManager.EngineCall "acme" TenantDatabaseManager.Start;
   TenantDatabaseManager.mkTask TenantDatabaseManager.SessionCall "globex" TenantDatabaseManager.Start;
   TenantDatabaseManager.mkTask TenantDatabaseManager.SessionCall "acme" TenantDatabaseManager.Start].

(** Sequential calls on the engine cache. *)
Inductive MgrCall :=
| GetEngine (s : string)
| GetSession (s : string)
| CloseTenant (s : string).

Definition mgr_step (m : TenantDatabaseManager.Manager) (c : MgrCall)
    : TenantDatabaseManager.Manager :=
  match c with
  | GetEngine s => snd (TenantDatabaseManager.get_tenant_engine s m)
  | GetSession s => snd (TenantDatabaseManager.get_tenant_session_prefix s m)
  | CloseTenant s => TenantDatabaseManager.close_tenant_connections s m
  end.

Definition mgr_run (cs : list MgrCall) (m : TenantDatabaseManager.Manager)
    : TenantDatabaseManager.Manager :=
  fold_left mgr_step cs m.

(** ** The engine cache *)

Module EngineCacheFacts.
Import TenantDatabaseManager.

Lemma lookup_none_entries (k : string) (l : list (string * nat)) :
  lookup k l = None <-> entries k l = 0.
Proof.
  unfold entries. induction l as [|[k' v] l IH]; simpl; [tauto|].
  rewrite (String.eqb_sym k' k).
  destruct (String.eqb k k'); simpl; [split; discriminate | exact IH].
Qed.

Lemma entries_snoc (s k : string) (v : nat) (l : list (string * nat)) :
  entries s (app l [(k, v)]) = entries s l + (if String.eqb k s then 1 else 0).
Proof.
  unfold entries. rewrite filter_app, length_app. simpl.
  destruct (String.eqb k s); reflexivity.
Qed.

Lemma count_snoc (s k : string) (l : list string) :
  count_occ string_dec (app l [k]) s = count_occ string_dec l s + (if String.eqb k s then 1 else 0).
Proof.
  rewrite count_occ_app. simpl.
  destruct (string_dec k s) as [E|E]; destruct (String.eqb_spec k s); congruence.
Qed.

Lemma engine_step (s k : string) (m : Manager) :
  cache_ok s m ->
  cache_ok s (snd (get_tenant_engine k m))
  /\ entries s (tenant_session_makers (snd (get_tenant_engine k m)))
     = entries s (tenant_session_makers m)
  /\ entries s (tenant_engines m) <= entries s (tenant_engines (snd (get_tenant_engine k m)))
  /\ (k = s -> entries s (tenant_engines (snd (get_tenant_engine k m))) = 1).
Proof.
  intros (H1 & H2 & H3 & H4). unfold get_tenant_engine.
  destruct (lookup k (tenant_engines m)) as [e|] eqn:E; simpl.
  - split; [repeat split; auto|]. split; [reflexivity|]. split; [lia|].
    intros ->. assert (entries s (tenant_engines m) <> 0).
    { intros Z. apply lookup_none_entries in Z. congruence. }
    lia.
  - apply lookup_none_entries in E.
    unfold cache_ok, pools_built in *. simpl.
    rewrite entries_snoc, count_snoc.
    destruct (String.eqb_spec k s) as [->|Hne].
    + rewrite E in *. repeat split; lia.
    + repeat split; intros; try lia. contradiction.
Qed.

Lemma session_step (s k : string) (m : Manager) :
  cache_ok s m ->
  cache_ok s (snd (get_tenant_session_prefix k m))
  /\ entries s (tenant_engines m)
     <= entries s (tenant_engines (snd (get_tenant_session_prefix k m)))
  /\ (k = s -> entries s (tenant_engines (snd (get_tenant_session_prefix k m))) = 1).
Proof.
  intros Hm. unfold get_tenant_session_prefix.
  destruct (lookup k (tenant_session_makers m)) as [f|] eqn:E; simpl.
  - split; [exact Hm|]. split; [lia|]. intros ->.
    destruct Hm as (_ & _ & H3 & H4). apply H4.
    assert (entries s (tenant_session_makers m) <> 0).
    { intros Z. apply lookup_none_entries in Z. congruence. }
    lia.
  - apply lookup_none_entries in E.
    destruct (engine_step s k m Hm) as (Hc & Hmk & Hmono & Hk).
    destruct (get_tenant_engine k m) as [e m1]. simpl in *.
    destruct Hc as (H1 & H2 & H3 & H4).
    unfold cache_ok, pools_built in *. simpl.
    rewrite entries_snoc.
    destruct (String.eqb_spec k s) as [->|Hne].
    + rewrite Hmk, E in *. specialize (Hk eq_refl).
      repeat split; lia.
    + rewrite Nat.add_0_r, Hmk.
      split; [repeat split; lia|]. split; [exact Hmono|]. intros; contradiction.
Qed.

Lemma in_update_nth {A} (i : nat) (x y : A) (l : list A) :
  In y (update_nth i x l) -> y = x \/ In y l.
Proof.
  revert i. induction l as [|z l IH]; intros [|i]; simpl.
  - tauto.
  - tauto.
  - intros [->|H]; [left; reflexivity | right; right; exact H].
  - intros [->|H]; [right; left; reflexivity|]. destruct (IH i H); tauto.
Qed.

Lemma task_step (s : string) (m : Manager) (ts : list Task) (i : nat) (t : Task) :
  cache_ok s m ->
  (progressed s ts -> entries s (tenant_engines m) = 1) ->
  nth_error ts i = Some t ->
  cache_ok s (fst (step_task m t))
  /\ (progressed s (update_nth i (snd (step_task m t)) ts)
      -> entries s (tenant_engines (fst (step_task m t))) = 1).
Proof.
  intros Hm Hp Hi.
  assert (Hin : In t ts) by (eapply nth_error_In; eauto).
  assert (Hs : task_slug (snd (step_task m t)) = task_slug t)
    by (unfold step_task; destruct (task_pc t), (task_call t); reflexivity).
  assert (Hgo : (task_slug t = s -> task_pc (snd (step_task m t)) <> Start ->
                 entries s (tenant_engines (fst (step_task m t))) = 1)
                /\ entries s (tenant_engines m) <= entries s (tenant_engines (fst (step_task m t)))
                /\ cache_ok s (fst (step_task m t))).
  { unfold step_task. destruct (task_pc t) eqn:Ep, (task_call t); simpl.
    - destruct (engine_step s (task_slug t) m Hm) as (Hc & _ & Hmono & Hk). auto.
    - destruct (session_step s (task_slug t) m Hm) as (Hc & Hmono & Hk). auto.
    - split; [|split; [lia | exact Hm]]. intros Hts _. apply Hp.
      exists t. rewrite Ep. repeat split; auto. discriminate.
    - split; [|split; [lia | exact Hm]]. intros Hts _. apply Hp.
      exists t. rewrite Ep. repeat split; auto. discriminate.
    - split; [|split; [lia | exact Hm]]. intros Hts _. apply Hp.
      exists t. rewrite Ep. repeat split; auto. discriminate.
    - split; [|split; [lia | exact Hm]]. intros Hts _. apply Hp.
      exists t. rewrite Ep. repeat split; auto. discriminate. }
  destruct Hgo as (Hgo & Hmono & Hc). split; [exact Hc|].
  intros (x & Hx & Hxs & Hxp). apply in_update_nth in Hx as [->|Hx].
  - apply Hgo; [congruence | exact Hxp].
  - assert (E1 : entries s (tenant_engines m) = 1) by (apply Hp; exists x; auto).
    destruct Hc as (_ & H2 & _). lia.
Qed.

Lemma run_inv (s : string) (sched : list nat) (m : Manager) (ts : list Task) :
  cache_ok s m ->
  (progressed s ts -> entries s (tenant_engines m) = 1) ->
  cache_ok s (fst (run sched m ts))
  /\ (progressed s (snd (run sched m ts)) -> entries s (tenant_engines (fst (run sched m ts))) = 1).
Proof.
  revert m ts. induction sched as [|i rest IH]; intros m ts Hm Hp; simpl; [auto|].
  destruct (nth_error ts i) as [t|] eqn:Hi; [|apply IH; auto].
  destruct (task_step s m ts i t Hm Hp Hi) as [Hc Hp'].
  destruct (step_task m t) as [m' t']. simpl in *. apply IH; auto.
Qed.

End EngineCacheFacts.

(** C7: start from a manager that has never seen [s] and any number of
    pending [get_tenant_engine] / [get_tenant_session] calls, all not yet
    started (calls on other slugs included).  Whatever order the event
    loop resumes them in, at most one pool is ever constructed for [s], the
    cache holds at most one engine and one session factory for it, and as
    soon as one call on [s] has run its first step exactly one pool has
    been constructed. *)
Theorem C7_one_pool_per_unseen_slug (s : string) (m : TenantDatabaseManager.Manager)
    (ts : list TenantDatabaseManager.Task) (sched : list nat) :
  TenantDatabaseManager.unseen s m ->
  Forall (fun t => TenantDatabaseManager.task_pc t = TenantDatabaseManager.Start) ts ->
  let r := TenantDatabaseManager.run sched m ts in
  TenantDatabaseManager.pools_built s (fst r) <= 1
  /\ TenantDatabaseManager.entries s (TenantDatabaseManager.tenant_engines (fst r)) <= 1
  /\ TenantDatabaseManager.entries s (TenantDatabaseManager.tenant_session_makers (fst r)) <= 1
  /\ (TenantDatabaseManager.progressed s (snd r) -> TenantDatabaseManager.pools_built s (fst r) = 1).
Proof.
  intros (H1 & H2 & H3) Hall r.
  assert (Hm : TenantDatabaseManager.cache_ok s m).
  { unfold TenantDatabaseManager.cache_ok. rewrite H1, H2, H3. repeat split; auto. }
  assert (Hp : TenantDatabaseManager.progressed s ts ->
               TenantDatabaseManager.entries s (TenantDatabaseManager.tenant_engines m) = 1).
  { intros (t & Ht & _ & Hpc). rewrite Forall_forall in Hall.
    exfalso. exact (Hpc (Hall t Ht)). }
  destruct (EngineCacheFacts.run_inv s sched m ts Hm Hp) as [(E1 & E2 & E3 & _) Hprog].
  fold r in E1, E2, E3, Hprog.
  repeat split; try lia. intros Hr. rewrite E1. apply Hprog. exact Hr.
Qed.

Lemma C7_one_pool_per_unseen_slug_witness :
  TenantDatabaseManager.unseen "acme" cold_manager
  /\ TenantDatabaseManager.pools_built "acme"
       (fst (TenantDatabaseManager.run [3; 1; 2; 0; 3; 0] cold_manager cold_requests)) = 1.
Proof.
  assert (Hu : TenantDatabaseManager.unseen "acme" cold_manager)
    by (repeat split).
  split; [exact Hu|].
  destruct (C7_one_pool_per_unseen_slug "acme" cold_manager cold_requests [3; 1; 2; 0; 3; 0] Hu)
    as (_ & _ & _ & H).
  - repeat constructor.
  - apply H. exists (TenantDatabaseManager.mkTask TenantDatabaseManager.SessionCall "acme"
                       TenantDatabaseManager.Finished).
    split; [vm_compute; tauto | split; [reflexivity | discriminate]].
Defined.


(** ** Closing tenant connections *)

Module EngineCloseFacts.
Import TenantDatabaseManager.

Lemma lookup_remove_key (k s : string) (l : list (string * nat)) :
  lookup k (remove_key s l) = if String.eqb k s then None else lookup k l.
Proof.
  induction l as [|[k' v] l IH]; simpl.
  - destruct (String.eqb k s); reflexivity.
  - destruct (String.eqb_spec k' s) as [->|Hne]; simpl.
    + rewrite IH. destruct (String.eqb k s); reflexivity.
    + rewrite IH. destruct (String.eqb_spec k k') as [->|Hkk].
      * rewrite (proj2 (String.eqb_neq k' s) Hne). reflexivity.
      * destruct (String.eqb k s); reflexivity.
Qed.

Lemma lookup_none_remove_key (k : string) (l : list (string * nat)) :
  lookup k l = None -> remove_key k l = l.
Proof.
  induction l as [|[k' v] l IH]; simpl; [reflexivity|].
  rewrite (String.eqb_sym k' k).
  destruct (String.eqb k k'); [discriminate|]. simpl. intros H. f_equal. exact (IH H).
Qed.

Lemma close_eq (k : string) (m : Manager) :
  close_tenant_connections k m
  = mkManager (remove_key k (tenant_engines m)) (remove_key k (tenant_session_makers m))
              (engines_built m) (next_obj m).
Proof.
  destruct m as [eng sm built n]. unfold close_tenant_connections. simpl.
  destruct (lookup k eng) eqn:E1; simpl;
    destruct (lookup k sm) eqn:E2; simpl;
    rewrite ?(lookup_none_remove_key k eng E1), ?(lookup_none_remove_key k sm E2);
    reflexivity.
Qed.

Lemma lookup_some_in (k : string) (v : nat) (l : list (string * nat)) :
  lookup k l = Some v -> In k (map fst l).
Proof.
  induction l as [|[k' v'] l IH]; simpl; [discriminate|].
  destruct (String.eqb_spec k k') as [->|_]; [auto | intros H; right; exact (IH H)].
Qed.

Lemma in_remove_key (k : string) (p : string * nat) (l : list (string * nat)) :
  In p (remove_key k l) <-> In p l /\ fst p <> k.
Proof.
  unfold remove_key. rewrite filter_In, negb_true_iff, String.eqb_neq. tauto.
Qed.

Lemma lookup_snoc (k s : string) (e : nat) (l : list (string * nat)) :
  lookup k (app l [(s, e)])
  = match lookup k l with Some v => Some v | None => if String.eqb k s then Some e else None end.
Proof.
  induction l as [|[k' v] l IH]; simpl; [reflexivity|].
  destruct (String.eqb k k'); [reflexivity | exact IH].
Qed.

(** Every session factory sits next to an engine for the same slug. *)
Definition keys_ok (m : Manager) : Prop :=
  forall p, In p (tenant_session_makers m) -> In (fst p) (map fst (tenant_engines m)).

Lemma get_engine_grows (k : string) (m : Manager) :
  (forall p, In p (tenant_engines m) -> In p (tenant_engines (snd (get_tenant_engine k m))))
  /\ tenant_session_makers (snd (get_tenant_engine k m)) = tenant_session_makers m
  /\ In k (map fst (tenant_engines (snd (get_tenant_engine k m)))).
Proof.
  unfold get_tenant_engine. destruct (lookup k (tenant_engines m)) as [e|] eqn:E; simpl.
  - split; [auto|]. split; [reflexivity|]. exact (lookup_some_in _ _ _ E).
  - split; [intros p Hp; apply in_or_app; left; exact Hp|]. split; [reflexivity|].
    rewrite map_app. apply in_or_app. right. left. reflexivity.
Qed.

Lemma keys_ok_step (m : Manager) (c : MgrCall) : keys_ok m -> keys_ok (mgr_step m c).
Proof.
  unfold keys_ok. intros H. destruct c as [k|k|k]; simpl.
  - destruct (get_engine_grows k m) as (Hg & Hs & _). rewrite Hs.
    intros p Hp. specialize (H p Hp). apply in_map_iff in H as [q [Hq Hin]].
    apply in_map_iff. exists q. auto.
  - unfold get_tenant_session_prefix.
    destruct (lookup k (tenant_session_makers m)) as [f|]; [exact H|].
    destruct (get_engine_grows k m) as (Hg & Hs & Hk).
    destruct (get_tenant_engine k m) as [e m1]. simpl in *.
    intros p Hp. apply in_app_or in Hp as [Hp|[<-|[]]].
    + rewrite Hs in Hp. specialize (H p Hp). apply in_map_iff in H as [q [Hq Hin]].
      apply in_map_iff. exists q. auto.
    + exact Hk.
  - rewrite close_eq. simpl. intros p Hp. apply in_remove_key in Hp as [Hp Hk].
    specialize (H p Hp). apply in_map_iff in H as [q [Hq Hin]].
    apply in_map_iff. exists q. split; [exact Hq|].
    apply in_remove_key. split; [exact Hin | congruence].
Qed.

Lemma keys_ok_run (cs : list MgrCall) (m : Manager) : keys_ok m -> keys_ok (mgr_run cs m).
Proof.
  unfold mgr_run. revert m. induction cs as [|c cs IH]; simpl; intros m H; [exact H|].
  apply IH. apply keys_ok_step. exact H.
Qed.

Lemma close_each_members (keys : list string) (m : Manager) (p : string * nat) :
  (In p (tenant_engines (close_each keys m)) <-> In p (tenant_engines m) /\ ~ In (fst p) keys)
  /\ (In p (tenant_session_makers (close_each keys m))
      <-> In p (tenant_session_makers m) /\ ~ In (fst p) keys).
Proof.
  revert m. induction keys as [|k keys IH]; intros m; simpl.
  - tauto.
  - rewrite (proj1 (IH _)), (proj2 (IH _)), close_eq. simpl.
    rewrite !in_remove_key. intuition congruence.
Qed.

Lemma no_member_nil {A} (l : list A) : (forall x, ~ In x l) -> l = [].
Proof. destruct l as [|x l]; [reflexivity|]. intros H. exfalso. apply (H x). left. reflexivity. Qed.

(** X5: after [close_tenant_connections s], neither dict holds [s]; the
    next [get_tenant_engine s] builds a new pool (one more
    [create_async_engine] call for [s]) and caches the engine it returns;
    the cache entries of every other slug are those from before the close. *)
Theorem close_then_get_engine (s : string) (m : Manager) :
  let m1 := close_tenant_connections s m in
  let r := get_tenant_engine s m1 in
  lookup s (tenant_engines m1) = None
  /\ lookup s (tenant_session_makers m1) = None
  /\ pools_built s (snd r) = S (pools_built s m)
  /\ lookup s (tenant_engines (snd r)) = Some (fst r)
  /\ (forall k, k <> s ->
        lookup k (tenant_engines (snd r)) = lookup k (tenant_engines m)
        /\ lookup k (tenant_session_makers (snd r)) = lookup k (tenant_session_makers m)).
Proof.
  cbv zeta. rewrite close_eq. unfold get_tenant_engine. simpl.
  rewrite !lookup_remove_key, String.eqb_refl. simpl.
  split; [reflexivity|]. split; [reflexivity|]. split.
  - unfold pools_built. simpl. rewrite count_occ_app. simpl.
    destruct (string_dec s s) as [_|C]; [lia | contradiction].
  - rewrite lookup_snoc, lookup_remove_key, String.eqb_refl. split; [reflexivity|].
    intros k Hk. rewrite lookup_snoc, !lookup_remove_key.
    rewrite (proj2 (String.eqb_neq k s) Hk).
    split; [destruct (lookup k (tenant_engines m)); reflexivity | reflexivity].
Qed.

(** X6: for the manager built at import time and any sequence of
    [get_tenant_engine], [get_tenant_session] and
    [close_tenant_connections] calls, [close_database] leaves the shared
    engine and session factory unset and both tenant dicts empty. *)
Theorem close_database_empties_caches (cs : list MgrCall) (e f : option nat) :
  let g := close_database (mkGlobals e f (mgr_run cs cold_manager)) in
  engine g = None /\ async_session_maker g = None
  /\ tenant_engines (tenant_db_manager g) = []
  /\ tenant_session_makers (tenant_db_manager g) = [].
Proof.
  assert (Hk : keys_ok (mgr_run cs cold_manager))
    by (apply keys_ok_run; intros p []).
  cbv zeta. unfold close_database, close_database_connection. simpl.
  split; [reflexivity|]. split; [reflexivity|].
  set (m := mgr_run cs cold_manager) in *. split; apply no_member_nil; intros p Hp.
  - apply (proj1 (close_each_members _ _ _)) in Hp as [Hp Hn].
    apply Hn. apply in_map. exact Hp.
  - apply (proj2 (close_each_members _ _ _)) in Hp as [Hp Hn].
    exact (Hn (Hk p Hp)).
Qed.

End EngineCloseFacts.

(** ** Sessions of the service *)

Lemma run_op_world (o : Op) (w : World) : run_op o w = w.
Proof. destruct o; reflexivity. Qed.

Lemma run_ops_world (ops : list Op) (w : World) : run_ops ops w = w.
Proof.
  unfold run_ops. revert w. induction ops as [|o ops IH]; intros w; simpl; [reflexivity|].
  rewrite run_op_world. apply IH.
Qed.

(** C1 (counterexample): tenant 1 is ACTIVE and lists "payroll", so the
    specified answer is true; [check_module_access 1 "payroll"] raises the
    [TypeError] of [async with get_session()] instead, and changes
    nothing. *)
Lemma C1_module_access_raises :
  is_active (sample_tenant ACTIVE) = true
  /\ has_module_access (sample_tenant ACTIVE) "payroll" = true
  /\ TenantService.check_module_access 1 "payroll" (sample_world ACTIVE)
     = (Raise session_protocol_error, sample_world ACTIVE).
Proof. repeat split. Qed.

(** C2 (counterexample): creating "acme" on the "enterprise" plan (30
    trial days) or on the "free" plan (no trial) returns no tenant at all:
    both calls raise the [TypeError] of [async with get_session()] and
    leave the world as it was.  Inside a working session the body would
    raise as well, at [Tenant(..., trial_days=...)]. *)
Lemma C2_create_tenant_raises :
  TenantService.create_tenant sample_clock None sample_data sample_admin "enterprise" empty_world
  = (Raise session_protocol_error, empty_world)
  /\ TenantService.create_tenant sample_clock None sample_data sample_admin "free" empty_world
     = (Raise session_protocol_error, empty_world)
  /\ fst (TenantService.create_tenant_body sample_clock None sample_data sample_admin
            "enterprise" (mkSt empty_world (db empty_world))) = Raise trial_days_error
  /\ fst (TenantService.create_tenant_body sample_clock None sample_data sample_admin
            "free" (mkSt empty_world (db empty_world))) = Raise trial_days_error.
Proof. repeat split; vm_compute; reflexivity. Qed.

(** C3: a [create_tenant] call whose schema DDL the database would reject
    ([Some msg]) commits no tenant row: the call raises, and the committed
    tables (the tenant table included), the schemas and the id sequence
    are those from before.  The exception is the [TypeError] of
    [async with get_session()]; no statement reaches the database. *)
Theorem C3_partition_failure_commits_nothing (clk : Clock) (msg : string)
    (td : TenantData) (ad : AdminData) (pt : string) (w : World) :
  let r := TenantService.create_tenant clk (Some msg) td ad pt w in
  fst r = Raise session_protocol_error
  /\ tenants (db (snd r)) = tenants (db w)
  /\ snd r = w.
Proof. repeat split. Qed.

(** C4 (counterexample): moving tenant 1 from "enterprise" to "free"
    appends no history row: [update_tenant_subscription] raises the
    [TypeError] of [async with get_session()] and the history table stays
    empty. *)
Lemma C4_update_appends_no_history :
  TenantService.update_tenant_subscription sample_clock 1 "free" (Some "cost") None
    (sample_world ACTIVE)
  = (Raise session_protocol_error, sample_world ACTIVE)
  /\ history (db (sample_world ACTIVE)) = [].
Proof. repeat split. Qed.


(** C6 (counterexample): [create_tenant_schema "acme"] raises on the
    first call and on the second, and no schema is created. *)
Lemma C6_schema_creation_raises :
  create_tenant_schema None "acme" empty_world = (Raise session_protocol_error, empty_world)
  /\ create_tenant_schema None "acme" (snd (create_tenant_schema None "acme" empty_world))
     = (Raise session_protocol_error, empty_world)
  /\ schemas empty_world = [].
Proof. repeat split. Qed.

(** C8: a tenant whose one row is CANCELLED keeps one row, still
    CANCELLED, after any sequence of [TenantService] calls
    ([activate_tenant], [suspend_tenant] and
    [update_tenant_subscription] included). *)
Theorem C8_no_terminal_status (ops : list Op) (w : World) (tid : nat) (t : Tenant) :
  rows_with_id tid (db w) = [t] ->
  status t = CANCELLED ->
  exists t', rows_with_id tid (db (run_ops ops w)) = [t'] /\ status t' = CANCELLED.
Proof. intros H Hs. rewrite run_ops_world. exists t. split; assumption. Qed.

(** C9: [suspend_tenant] followed by [activate_tenant] changes no field of
    any tenant (enabled modules, plan, quotas, feature flags) and no
    schema: both calls raise and the world after them is the world
    before. *)
Theorem C9_suspend_activate_frame (clk1 clk2 : Clock) (tid : nat) (reason : string)
    (w : World) :
  let r1 := TenantService.suspend_tenant clk1 tid reason w in
  let r2 := TenantService.activate_tenant clk2 tid (snd r1) in
  fst r1 = Raise session_protocol_error
  /\ fst r2 = Raise session_protocol_error
  /\ tenants (db (snd r2)) = tenants (db w)
  /\ schemas (snd r2) = schemas w
  /\ snd r2 = w.
Proof. repeat split. Qed.

(** C10 (counterexample): no tenant has id 7, and
    [check_module_access 7 "payroll"] raises the [TypeError] of
    [async with get_session()] instead of returning false. *)
Lemma C10_unknown_tenant_raises :
  rows_with_id 7 (db (sample_world ACTIVE)) = []
  /\ TenantService.check_module_access 7 "payroll" (sample_world ACTIVE)
     = (Raise session_protocol_error, sample_world ACTIVE).
Proof. repeat split. Qed.

(** ** Every session-backed operation *)

(** X1: every modelled [TenantService] operation raises the [TypeError] of
    [async with get_session()] and leaves the world unchanged, whatever
    its arguments and the state. *)
Theorem service_operations_raise (clk : Clock) (fault : option string)
    (td : TenantData) (ad : AdminData) (pt : string) (tid : nat)
    (cr ib : option string) (reason rt act module slug_ : string) (q : Q)
    (rid : option string) (w : World) :
  TenantService.create_tenant clk fault td ad pt w = (Raise session_protocol_error, w)
  /\ TenantService.update_tenant_subscription clk tid pt cr ib w
     = (Raise session_protocol_error, w)
  /\ TenantService.suspend_tenant clk tid reason w = (Raise session_protocol_error, w)
  /\ TenantService.activate_tenant clk tid w = (Raise session_protocol_error, w)
  /\ TenantService.get_tenant_usage tid w = (Raise session_protocol_error, w)
  /\ TenantService.log_usage clk tid rt act q rid w = (Raise session_protocol_error, w)
  /\ TenantService.check_module_access tid module w = (Raise session_protocol_error, w)
  /\ TenantService.get_tenant_by_slug slug_ w = (Raise session_protocol_error, w).
Proof. repeat split. Qed.

(** X2: the schema operations of [TenantDatabaseManager] raise the same
    [TypeError] and leave the world unchanged. *)
Theorem schema_operations_raise (fault : option string) (s : string) (w : World) :
  create_tenant_schema fault s w = (Raise session_protocol_error, w)
  /\ drop_tenant_schema fault s w = (Raise session_protocol_error, w)
  /\ tenant_exists s w = (Raise session_protocol_error, w)
  /\ list_tenants w = (Raise session_protocol_error, w).
Proof. repeat split. Qed.

(** X3: run inside a working session, the body of [create_tenant] never
    returns either: it raises, and the committed state is untouched (the
    exception comes before the flush, the DDL and the commit).  When the
    requested type is a plan type and exactly one active catalog plan has
    it, the exception is the [TypeError] of [Tenant(..., trial_days=...)]. *)
Theorem create_tenant_body_never_returns (clk : Clock) (fault : option string)
    (td : TenantData) (ad : AdminData) (pt : string) (s : St) :
  let r := TenantService.create_tenant_body clk fault td ad pt s in
  (exists e, fst r = Raise e)
  /\ world (snd r) = world s
  /\ (forall tp p, TenantPlan_of pt = Some tp ->
        filter (fun p => String.eqb (sp_plan_type p) pt && sp_is_active p) (plans (work s)) = [p] ->
        fst r = Raise trial_days_error).
Proof.
  unfold TenantService.create_tenant_body, try_rollback, TenantService._get_subscription_plan.
  cbv zeta.
  destruct (TenantPlan_of pt) as [tp0|] eqn:Etp.
  - unfold bind, get_work, scalar_one_or_none. cbn.
    destruct (filter _ (plans (work s))) as [|p0 [|p1 rest]] eqn:Ef; cbn.
    + split; [eexists; reflexivity|]. split; [reflexivity|].
      intros tp p _ H. discriminate H.
    + split; [eexists; reflexivity|]. split; [reflexivity|]. reflexivity.
    + split; [eexists; reflexivity|]. split; [reflexivity|].
      intros tp p _ H. discriminate H.
  - simpl. split; [eexists; reflexivity|]. split; [reflexivity|].
    intros tp p H. discriminate H.
Qed.

(** ** The engine cache, sequentially *)

Module EngineCacheCalls.
Import TenantDatabaseManager.

Lemma lookup_app_none (k s : string) (e : nat) (l : list (string * nat)) :
  lookup k l = None -> lookup k (app l [(s, e)]) = if String.eqb k s then Some e else None.
Proof.
  induction l as [|[k' v] l IH]; simpl; [reflexivity|].
  destruct (String.eqb k k'); [discriminate | exact IH].
Qed.

Lemma remove_key_idem (k : string) (l : list (string * nat)) :
  remove_key k (remove_key k l) = remove_key k l.
Proof.
  unfold remove_key. induction l as [|p l IH]; simpl; [reflexivity|].
  destruct (negb (String.eqb (fst p) k)) eqn:E; simpl; [rewrite E, IH | exact IH].
  reflexivity.
Qed.

Lemma lookup_remove_key_self (k : string) (l : list (string * nat)) :
  lookup k (remove_key k l) = None.
Proof.
  unfold remove_key. induction l as [|[k' v] l IH]; simpl; [reflexivity|].
  destruct (String.eqb_spec k' k) as [->|Hne]; simpl; [exact IH|].
  rewrite (proj2 (String.eqb_neq k k') (fun H => Hne (eq_sym H))). exact IH.
Qed.

Lemma close_form (k : string) (m : Manager) :
  close_tenant_connections k m
  = mkManager (remove_key k (tenant_engines m)) (remove_key k (tenant_session_makers m))
              (engines_built m) (next_obj m).
Proof.
  assert (Hn : forall l, lookup k l = None -> remove_key k l = l).
  { unfold remove_key. induction l as [|[k' v] l IH]; simpl; [reflexivity|].
    rewrite (String.eqb_sym k' k).
    destruct (String.eqb k k'); [discriminate|]. simpl. intros H. f_equal. exact (IH H). }
  destruct m as [eng sm built n]. unfold close_tenant_connections. simpl.
  destruct (lookup k eng) eqn:E1; simpl;
    destruct (lookup k sm) eqn:E2; simpl;
    rewrite ?(Hn eng E1), ?(Hn sm E2); reflexivity.
Qed.

(** X4: a second [get_tenant_engine s] returns the engine the first one
    returned and changes nothing: no second pool is built. *)
Theorem get_tenant_engine_idempotent (s : string) (m : Manager) :
  let r1 := get_tenant_engine s m in
  let r2 := get_tenant_engine s (snd r1) in
  fst r2 = fst r1 /\ snd r2 = snd r1.
Proof.
  cbv zeta. unfold get_tenant_engine.
  destruct (lookup s (tenant_engines m)) as [e|] eqn:E; simpl.
  - rewrite E. split; reflexivity.
  - rewrite (lookup_app_none s s _ _ E), String.eqb_refl. split; reflexivity.
Qed.

(** X7: after [get_tenant_session s] has run up to its first [await],
    the session-factory dict maps [s] to the factory it uses; a second
    call reuses that factory and changes nothing.  When no factory was
    cached, the engine dict holds [s] too. *)
Theorem get_tenant_session_caches (s : string) (m : Manager) :
  let r1 := get_tenant_session_prefix s m in
  let r2 := get_tenant_session_prefix s (snd r1) in
  lookup s (tenant_session_makers (snd r1)) = Some (fst r1)
  /\ fst r2 = fst r1 /\ snd r2 = snd r1
  /\ (lookup s (tenant_session_makers m) = None -> lookup s (tenant_engines (snd r1)) <> None).
Proof.
  cbv zeta. unfold get_tenant_session_prefix.
  destruct (lookup s (tenant_session_makers m)) as [f|] eqn:E; simpl.
  - rewrite E. repeat split. discriminate.
  - unfold get_tenant_engine.
    destruct (lookup s (tenant_engines m)) as [e|] eqn:Ee; simpl.
    + rewrite (lookup_app_none s s _ _ E), String.eqb_refl. simpl.
      repeat split. intros _. rewrite Ee. discriminate.
    + rewrite (lookup_app_none s s _ _ E), String.eqb_refl. simpl.
      repeat split. intros _. rewrite (lookup_app_none s s _ _ Ee), String.eqb_refl.
      discriminate.
Qed.

(** X8: [close_tenant_connections s] deletes both cache entries of [s],
    keeps every other slug's entries, and a second call changes nothing. *)
Theorem close_tenant_connections_idempotent (s : string) (m : Manager) :
  let m1 := close_tenant_connections s m in
  lookup s (tenant_engines m1) = None
  /\ lookup s (tenant_session_makers m1) = None
  /\ engines_built m1 = engines_built m
  /\ close_tenant_connections s m1 = m1.
Proof.
  cbv zeta. rewrite !close_form. simpl.
  rewrite !lookup_remove_key_self, !remove_key_idem. repeat split.
Qed.

End EngineCacheCalls.

(** ** Instances *)


Lemma C8_no_terminal_status_witness :
  exists t', rows_with_id 1 (db (run_ops
               [OpActivate sample_clock 1;
                OpUpdateSubscription sample_clock 1 "enterprise" None None;
                OpSuspend sample_clock 1 "fraud"]
               (sample_world CANCELLED))) = [t'] /\ status t' = CANCELLED.
Proof.
  apply (C8_no_terminal_status _ (sample_world CANCELLED) 1 (sample_tenant CANCELLED));
    reflexivity.
Defined.

Lemma create_tenant_body_never_returns_witness :
  fst (TenantService.create_tenant_body sample_clock None sample_data sample_admin "enterprise"
         (mkSt empty_world (db empty_world))) = Raise trial_days_error.
Proof.
  apply (proj2 (proj2 (create_tenant_body_never_returns sample_clock None sample_data
                          sample_admin "enterprise" (mkSt empty_world (db empty_world))))
           ENTERPRISE enterprise_plan); reflexivity.
Defined.
